(** * AI Chat Service: the [/chat] endpoint of [main.py]

    A shallow embedding of [chat_endpoint] and of the pydantic models it
    works on, followed by the properties of prompt assembly and of the
    mapping from exceptions to HTTP replies. The set-up script
    [setup.py] is embedded next to it, as a program over an abstract
    machine, with the properties of its runs.

    Python [str] values are modelled as [string]; the only character-level
    operation the handler performs is [str.lower()], whose effect on the
    letters of the word it is tested against is the ASCII one. The process
    environment is a finite map from variable names to values.  The Gemini
    client and the logger are effects: every provider invocation and every
    log record is appended to an explicit [world]. *)

From Stdlib Require Import Ascii String ZArith QArith Lia.
From stdpp Require Import base strings list gmap pretty.

Local Open Scope string_scope.
Local Open Scope list_scope.

(** ** Python string primitives *)

Module PyStr.

(** The newline character of the triple-quoted literals and of ["\n\n"]. *)
Definition nl : string := String (ascii_of_nat 10) EmptyString.

(** [sub in s]: some suffix of [s] starts with [sub]. *)
Fixpoint str_in (sub s : string) : bool :=
  String.prefix sub s ||
  match s with
  | EmptyString => false
  | String _ rest => str_in sub rest
  end.

(** [c.lower()] on one character: the letters [A]..[Z] move to
    [a]..[z], everything else is left alone. *)
Definition lower_char (c : ascii) : ascii :=
  let n := nat_of_ascii c in
  if (65 <=? n)%nat && (n <=? 90)%nat then ascii_of_nat (n + 32) else c.

(** [s.lower()] *)
Fixpoint lower (s : string) : string :=
  match s with
  | EmptyString => EmptyString
  | String c rest => String (lower_char c) (lower rest)
  end.

(** [s[:n]] *)
Fixpoint slice_to (n : nat) (s : string) : string :=
  match n, s with
  | S n', String c rest => String c (slice_to n' rest)
  | _, _ => EmptyString
  end.

(** [l[-n:]] for a positive [n]: the whole list when it has at most [n]
    elements, its last [n] elements otherwise. *)
Definition slice_last {A} (n : nat) (l : list A) : list A :=
  drop (length l - n) l.

(** Truthiness of an [Optional[str]]: [None] and the empty string are
    falsy. *)
Definition truthy (o : option string) : bool :=
  match o with
  | Some (String _ _) => true
  | _ => false
  end.

(** [o or d] for an [Optional[str]] [o] and a string [d]. *)
Definition or_else (o : option string) (d : string) : string :=
  match o with
  | Some (String c rest) => String c rest
  | _ => d
  end.

(** [f"{o}"] for an [Optional[str]]. *)
Definition format_opt (o : option string) : string :=
  match o with
  | Some s => s
  | None => "None"
  end.

(** [sep.join(parts)] *)
Definition join (sep : string) (parts : list string) : string :=
  String.concat sep parts.

End PyStr.

Import PyStr.

(** ** Pydantic models *)

Record ChatMessage := {
  role : string;
  content : string;
  timestamp : option string
}.

Record ChatRequest := {
  message : string;
  history : list ChatMessage;
  search_context : option string;
  user_id : option string;
  system_prompt : option string
}.

Record ChatResponse := {
  response : string;
  status : string;
  error : option string
}.

(** ** Exceptions and the HTTP layer *)

(** The exceptions that reach [except Exception]: FastAPI's
    [HTTPException], and any other exception, represented by its text. *)
Inductive exn :=
| HTTPException (status_code : Z) (detail : string)
| Exception (text : string).

(** What the client receives. *)
Inductive body :=
| JsonChat (r : ChatResponse)
| JsonDetail (detail : string)
| PlainText (text : string).

Record http_reply := { code : Z; payload : body }.

(** FastAPI's treatment of what a path operation returns or raises: a
    returned model is sent with status 200, an [HTTPException] with its
    own status and [{"detail": ...}], anything else as a bare 500. *)
Definition fastapi_reply (r : exn + ChatResponse) : http_reply :=
  match r with
  | inr resp => {| code := 200; payload := JsonChat resp |}
  | inl (HTTPException c d) => {| code := c; payload := JsonDetail d |}
  | inl (Exception _) => {| code := 500; payload := PlainText "Internal Server Error" |}
  end.

(** ** Effects: the log sink and the generation provider *)

Inductive level := INFO | ERROR.

Record GenerationConfig := {
  max_output_tokens : Z;
  temperature : Q
}.

(** One [GenerativeModel(model_name).generate_content(prompt, generation_config=...)]. *)
Record generation_call := {
  call_model : string;
  call_prompt : string;
  call_config : GenerationConfig
}.

(** The provider: the text of the response, or the exception raised by
    the client while producing it. *)
Definition provider := generation_call -> exn + string.

Record world := {
  log : list (level * string);
  calls : list generation_call
}.

Definition empty_world : world := {| log := []; calls := [] |}.

(** A computation that may raise, over the world. *)
Definition M (A : Type) : Type := world -> (exn + A) * world.

Definition ret {A} (a : A) : M A := fun w => (inr a, w).

Definition raise {A} (e : exn) : M A := fun w => (inl e, w).

Definition bind {A B} (m : M A) (k : A -> M B) : M B :=
  fun w =>
    match m w with
    | (inr a, w') => k a w'
    | (inl e, w') => (inl e, w')
    end.

(** [try: m except Exception as e: h e] *)
Definition try_except {A} (m : M A) (h : exn -> M A) : M A :=
  fun w =>
    match m w with
    | (inl e, w') => h e w'
    | r => r
    end.

Notation "'let*' x := m 'in' k" := (bind m (fun x => k))
  (at level 10, x name, m at level 100, k at level 200).
Notation "m ;; k" := (bind m (fun _ => k))
  (at level 100, k at level 200, right associativity).

(** [logger.info(msg)] / [logger.error(msg)] *)
Definition logger (l : level) (msg : string) : M unit :=
  fun w => (inr tt, {| log := log w ++ [(l, msg)]; calls := calls w |}).

(** The call to the Gemini client, recorded in the world. *)
Definition generate (p : provider) (c : generation_call) : M string :=
  fun w => (p c, {| log := log w; calls := calls w ++ [c] |}).

(** ** Module-level configuration *)

(** [os.getenv(name)] *)
Definition getenv (env : gmap string string) (name : string) : option string :=
  env !! name.

(** [os.getenv(name, default)] *)
Definition getenv_default (env : gmap string string) (name default : string) : string :=
  match env !! name with
  | Some v => v
  | None => default
  end.

(** [gemini_api_key = os.getenv("GEMINI_API_KEY")], read when the module
    is loaded. *)
Definition gemini_api_key (env : gmap string string) : option string :=
  getenv env "GEMINI_API_KEY".

(** ** Prompt assembly *)

Definition indent : string := "            ".

(** The literal on the right of [request.system_prompt or ...]. *)
Definition default_system_prompt : string :=
  nl +:+ indent +:+
  "You are a helpful AI assistant that answers questions based on provided context. "
  +:+ nl +:+ indent +:+
  "If search context is provided, use it to give accurate and detailed answers. "
  +:+ nl +:+ indent +:+
  "If no context is provided or it's not relevant, provide helpful responses based on your knowledge."
  +:+ nl +:+ indent +:+
  "Be conversational and friendly.".

Definition effective_system_prompt (request : ChatRequest) : string :=
  or_else (system_prompt request) default_system_prompt.

(** [f"System: {system_prompt}"] *)
Definition system_segment (request : ChatRequest) : string :=
  "System: " +:+ effective_system_prompt request.

(** ["Human" if msg.role == "user" else "Assistant"] *)
Definition role_tag (r : string) : string :=
  if String.eqb r "user" then "Human" else "Assistant".

(** [f"{role}: {msg.content}"] *)
Definition history_segment (msg : ChatMessage) : string :=
  role_tag (role msg) +:+ ": " +:+ content msg.

Definition instruction_phrase : string :=
  "Please answer the question using the provided search context when relevant.".

(** The f-string that wraps the message when a search context is given. *)
Definition with_search_context (msg ctx : string) : string :=
  "Question: " +:+ msg +:+ nl +:+
  indent +:+ "# Search Context:" +:+ nl +:+
  indent +:+ "# " +:+ ctx +:+ nl +:+
  nl +:+
  indent +:+ "# " +:+ instruction_phrase.

Definition current_message (request : ChatRequest) : string :=
  if truthy (search_context request)
  then with_search_context (message request) (format_opt (search_context request))
  else message request.

(** [f"Human: {current_message}"] *)
Definition current_segment (request : ChatRequest) : string :=
  "Human: " +:+ current_message request.

(** [conversation_parts] after the three appends: the list starts empty,
    receives the system segment, then one segment per message of
    [request.history[-10:]] in loop order, then the current turn. *)
Definition conversation_parts (request : ChatRequest) : list string :=
  let parts := [] in
  let parts := parts ++ [system_segment request] in
  let parts :=
    fold_left (fun acc msg => acc ++ [history_segment msg])
              (slice_last 10 (history request)) parts in
  parts ++ [current_segment request].

Definition separator : string := nl +:+ nl.

(** [full_prompt = "\n\n".join(conversation_parts)] *)
Definition full_prompt (request : ChatRequest) : string :=
  join separator (conversation_parts request).

(** ** The endpoint *)

Definition generation_config : GenerationConfig :=
  {| max_output_tokens := 1000; temperature := Qmake 7 10 |}.

Definition apology : string :=
  "I'm sorry, I'm having trouble connecting to the AI service right now. Please try again later.".

(** The three f-strings logged at [INFO] level. *)
Definition received_message (request : ChatRequest) : string :=
  "Received chat request from user " +:+ format_opt (user_id request)
  +:+ ": " +:+ message request.

Definition sending_message (prompt : string) : string :=
  "Sending prompt to Gemini: " +:+ slice_to 200 prompt +:+ "...".

Definition response_message (ai_response : string) : string :=
  "Received response from Gemini: " +:+ slice_to 100 ai_response +:+ "...".

Section Endpoint.

(** [str(e)] for an [HTTPException] is decided by the installed
    Starlette, so the handler is read for any rendering of it. *)
Variable str_http : Z -> string -> string.

(** The process environment and the Gemini client. *)
Variable env : gmap string string.
Variable gemini : provider.

(** [str(e)] *)
Definition str_exn (e : exn) : string :=
  match e with
  | HTTPException c d => str_http c d
  | Exception text => text
  end.

(** The body of the [try] block. *)
Definition chat_try (request : ChatRequest) : M ChatResponse :=
  logger INFO (received_message request) ;;
  (if truthy (gemini_api_key env)
   then ret tt
   else raise (HTTPException 500 "Gemini API key not configured")) ;;
  let prompt := full_prompt request in
  logger INFO (sending_message prompt) ;;
  let model_name := getenv_default env "GEMINI_MODEL" "gemini-1.5-pro" in
  let* ai_response :=
    generate gemini {| call_model := model_name;
                       call_prompt := prompt;
                       call_config := generation_config |} in
  logger INFO (response_message ai_response) ;;
  ret {| response := ai_response; status := "success"; error := None |}.

(** The [except Exception as e] clause. *)
Definition chat_except (e : exn) : M ChatResponse :=
  if str_in "API" (str_exn e) || str_in "quota" (lower (str_exn e))
  then
    logger ERROR ("Gemini API error: " +:+ str_exn e) ;;
    ret {| response := apology; status := "error"; error := Some (str_exn e) |}
  else
    logger ERROR ("Unexpected error: " +:+ str_exn e) ;;
    raise (HTTPException 500 ("Internal server error: " +:+ str_exn e)).

Definition chat_endpoint (request : ChatRequest) : M ChatResponse :=
  try_except (chat_try request) chat_except.

(** The reply sent for a request handled in world [w]. *)
Definition post_chat (request : ChatRequest) (w : world) : http_reply :=
  fastapi_reply (fst (chat_endpoint request w)).

End Endpoint.

(** [HTTPException.__str__] of current Starlette: [f"{status_code}: {detail}"]. *)
Definition starlette_str (c : Z) (d : string) : string :=
  pretty c +:+ ": " +:+ d.

(** Starlette before [__str__] was defined: the exception is built
    without arguments, and its text is empty. *)
Definition starlette_legacy_str (c : Z) (d : string) : string := EmptyString.

(** ** Vocabulary of the properties *)

(** [sub] occurs in [s] when letter case is ignored. *)
Definition contains_ci (sub s : string) : bool :=
  str_in (lower sub) (lower s).

(** Two messages that agree on everything but their timestamp. *)
Definition same_turn (m1 m2 : ChatMessage) : Prop :=
  role m1 = role m2 /\ content m1 = content m2.

(** Two requests that agree on everything but [user_id] and the
    timestamps of their history. *)
Definition same_conversation (r1 r2 : ChatRequest) : Prop :=
  message r1 = message r2 /\
  search_context r1 = search_context r2 /\
  system_prompt r1 = system_prompt r2 /\
  Forall2 same_turn (history r1) (history r2).

(** The call the handler makes for [request] under [env]. *)
Definition expected_call (env : gmap string string) (request : ChatRequest)
  : generation_call :=
  {| call_model := match getenv env "GEMINI_MODEL" with
                   | Some m => m
                   | None => "gemini-1.5-pro"
                   end;
     call_prompt := full_prompt request;
     call_config := {| max_output_tokens := 1000; temperature := Qmake 7 10 |} |}.

(** ** Sample data *)

Module Sample.

Definition turn (r c : string) (t : option string) : ChatMessage :=
  {| role := r; content := c; timestamp := t |}.

Definition plain : ChatRequest :=
  {| message := "hi"; history := []; search_context := None;
     user_id := None; system_prompt := None |}.

Definition two_turns : ChatRequest :=
  {| message := "and now?";
     history := [turn "user" "a" None; turn "assistant" "b" (Some "12:00")];
     search_context := Some "CTX"; user_id := Some "u1";
     system_prompt := Some EmptyString |}.

Definition numbered (n : nat) : ChatMessage :=
  turn (if Nat.even n then "user" else "assistant") (pretty n) None.

(** Twelve turns, numbered 0 to 11. *)
Definition long : ChatRequest :=
  {| message := "next"; history := map numbered (seq 0 12);
     search_context := None; user_id := None; system_prompt := Some "Be brief." |}.

Definition with_key : gmap string string := {[ "GEMINI_API_KEY" := "k" ]}.

Definition answering (text : string) : provider := fun _ => inr text.

Definition failing (text : string) : provider := fun _ => inl (Exception text).

(** The text of an [AttributeError] on a missing response. *)
Definition null_fault : string := "'NoneType' object has no attribute 'text'".

End Sample.

(** The texts logged at [ERROR] level among some log records. *)
Definition error_records (l : list (level * string)) : list string :=
  map snd (List.filter (fun r => match fst r with ERROR => true | INFO => false end) l).

(** The test of the [except] clause on the text of the exception. *)
Definition upstream_text (text : string) : bool :=
  str_in "API" text || str_in "quota" (lower text).

(** * The environment set-up script, [setup.py] *)

Module Setup.

(** What [sys] and [os] tell the script about the interpreter running
    it, and the directory of the script itself. *)
Record interpreter := {
  major : Z;
  minor : Z;
  executable : string;
  os_name : string;
  script_dir : string
}.

(** What [subprocess.run(..., capture_output=True, text=True)] reports
    of a finished command. *)
Record completed := {
  returncode : Z;
  stderr : string
}.

(** What the script does to the outside, in order. *)
Inductive event :=
| Chdir (dir : string)
| Print (line : string)
| Ran (cmd : string) (result : completed).

(** The commands of a trace, in the order they were run. *)
Fixpoint commands (tr : list event) : list string :=
  match tr with
  | [] => []
  | Ran cmd _ :: rest => cmd :: commands rest
  | _ :: rest => commands rest
  end.

(** [sys.version_info < (3, 8)]: the five-field version tuple against a
    pair, field by field; on equal fields the shorter tuple is the
    smaller one. *)
Definition version_too_old (py : interpreter) : bool :=
  (major py <? 3)%Z || ((major py =? 3)%Z && (minor py <? 8)%Z).

Section Script.

(** The file system, as a state that commands change and that
    [Path.exists] reads, relative to the script's directory. *)
Variable fs : Type.
Variable shell : string -> fs -> completed * fs.
Variable path_exists : string -> fs -> bool.
Variable py : interpreter.

Record machine := {
  files : fs;
  trace : list event
}.

(** A step of the script: it changes the machine, and either gives a
    value or leaves through [sys.exit(code)]. *)
Definition step (A : Type) : Type := machine -> (Z + A) * machine.

Definition done_with {A} (a : A) : step A := fun m => (inr a, m).

Definition sys_exit {A} (code : Z) : step A := fun m => (inl code, m).

Definition and_then {A B} (s : step A) (k : A -> step B) : step B :=
  fun m =>
    match s m with
    | (inr a, m') => k a m'
    | (inl code, m') => (inl code, m')
    end.

Definition emit (ev : event) : step unit :=
  fun m => (inr tt, {| files := files m; trace := trace m ++ [ev] |}).

(** [print(line)] *)
Definition print (line : string) : step unit := emit (Print line).

(** [os.chdir(dir)] *)
Definition chdir (dir : string) : step unit := emit (Chdir dir).

(** [Path(p).exists()] *)
Definition exists_ (p : string) : step bool :=
  fun m => (inr (path_exists p (files m)), m).

(** The command of [subprocess.run(cmd, shell=True, ...)] run to its
    end; what [check=True] makes of its return code is in [run_command]. *)
Definition subprocess_run (cmd : string) : step completed :=
  fun m =>
    let (result, files') := shell cmd (files m) in
    (inr result, {| files := files'; trace := trace m ++ [Ran cmd result] |}).

(** [run_command]: with [check=True] a return code other than 0 raises
    [CalledProcessError], which the function catches. *)
Definition run_command (cmd description : string) : step bool :=
  and_then (print ("🔄 " +:+ description +:+ "...")) (fun _ =>
  and_then (subprocess_run cmd) (fun result =>
  if (returncode result =? 0)%Z
  then and_then (print ("✅ " +:+ description +:+ " completed")) (fun _ =>
       done_with true)
  else and_then (print ("❌ " +:+ description +:+ " failed: " +:+ stderr result)) (fun _ =>
       done_with false))).

Definition python_cmd : string :=
  if String.eqb (os_name py) "nt" then "venv\Scripts\python" else "venv/bin/python".

Definition pip_cmd : string :=
  if String.eqb (os_name py) "nt" then "venv\Scripts\pip" else "venv/bin/pip".

Definition create_venv : string := executable py +:+ " -m venv venv".

Definition upgrade_pip : string := pip_cmd +:+ " install --upgrade pip".

Definition install_requirements : string := pip_cmd +:+ " install -r requirements.txt".

Definition copy_env : string := "cp .env.example .env".

(** [main()], block by block. *)

Definition check_python : step unit :=
  and_then (chdir (script_dir py)) (fun _ =>
  and_then (print "🚀 Setting up Python AI Chat Service...") (fun _ =>
  and_then (print ("📁 Working directory: " +:+ script_dir py)) (fun _ =>
  and_then (if version_too_old py
            then and_then (print "❌ Python 3.8+ is required") (fun _ => sys_exit 1)
            else done_with tt) (fun _ =>
  print ("✅ Python " +:+ pretty (major py) +:+ "." +:+ pretty (minor py) +:+ " detected"))))).

Definition ensure_venv : step unit :=
  and_then (exists_ "venv") (fun found =>
  if negb found
  then and_then (run_command create_venv "Creating virtual environment") (fun ok =>
       if negb ok then sys_exit 1 else done_with tt)
  else print "✅ Virtual environment already exists").

Definition install : step unit :=
  and_then (run_command upgrade_pip "Upgrading pip") (fun _ =>
  and_then (run_command install_requirements "Installing requirements") (fun ok =>
  if negb ok
  then and_then (print "❌ Failed to install requirements. Check your internet connection.")
                (fun _ => sys_exit 1)
  else done_with tt)).

Definition ensure_env_file : step unit :=
  and_then (exists_ ".env") (fun found =>
  if negb found
  then and_then (exists_ ".env.example") (fun example =>
       if example
       then and_then (run_command copy_env "Creating .env file") (fun _ =>
            and_then (print "⚠️  Please edit .env file and add your Gemini API key") (fun _ =>
            print "   Get key: https://makersuite.google.com/app/apikey"))
       else print "❌ .env.example not found")
  else print "✅ .env file already exists").

Definition epilogue : step unit :=
  and_then (print (nl +:+ "🎉 Setup complete!")) (fun _ =>
  and_then (print (nl +:+ "To start the server:")) (fun _ =>
  and_then (print ("  " +:+ python_cmd +:+ " main.py")) (fun _ =>
  and_then (print (nl +:+ "Or use the run script:")) (fun _ =>
  print "  ./run.sh")))).

Definition main : step unit :=
  and_then check_python (fun _ =>
  and_then ensure_venv (fun _ =>
  and_then install (fun _ =>
  and_then ensure_env_file (fun _ =>
  epilogue)))).

End Script.

Arguments files {fs} _.
Arguments trace {fs} _.
Arguments Build_machine {fs} _ _.

(** A small machine to run the script on: its state is the list of the
    paths that exist, the commands listed in [failing] fail on it, and
    creating the environment or copying the example file makes the
    target exist. *)
Definition box_exists (p : string) (present : list string) : bool :=
  bool_decide (p ∈ present).

Definition box_shell (py : interpreter) (failing : list string)
    (cmd : string) (present : list string) : completed * list string :=
  if bool_decide (cmd ∈ failing)
  then ({| returncode := 1; stderr := "failed" |}, present)
  else ({| returncode := 0; stderr := EmptyString |},
        if String.eqb cmd (create_venv py) then "venv" :: present
        else if String.eqb cmd copy_env then ".env" :: present
        else present).

Definition cpython (maj min : Z) : interpreter :=
  {| major := maj; minor := min; executable := "/usr/bin/python3";
     os_name := "posix"; script_dir := "/srv/chat" |}.

Definition fresh (present : list string) : machine (list string) :=
  {| files := present; trace := [] |}.

Definition run_on (py : interpreter) (failing present : list string)
  : (Z + unit) * machine (list string) :=
  main (list string) (box_shell py failing) box_exists py (fresh present).

End Setup.

(** * Properties *)

(** ** Strings *)

Section StringFacts.

Implicit Types (a b c sub s t : string).

Lemma append_cons (x : ascii) s t : String x s +:+ t = String x (s +:+ t).
Proof. reflexivity. Qed.

Lemma append_empty_l s : EmptyString +:+ s = s.
Proof. reflexivity. Qed.

Lemma append_assoc a b c : (a +:+ b) +:+ c = a +:+ (b +:+ c).
Proof.
  induction a as [|x a IH]; [reflexivity|].
  rewrite !append_cons. now rewrite IH.
Qed.

Lemma prefix_append sub t : String.prefix sub (sub +:+ t) = true.
Proof.
  induction sub as [|x sub IH]; [now destruct t|].
  rewrite append_cons. cbn [String.prefix].
  destruct (ascii_dec x x); [exact IH | congruence].
Qed.

Lemma prefix_split sub : forall s,
  String.prefix sub s = true -> exists t, s = sub +:+ t.
Proof.
  induction sub as [|x sub IH]; intros s H.
  - exists s. reflexivity.
  - destruct s as [|y s]; cbn [String.prefix] in H; [discriminate|].
    destruct (ascii_dec x y) as [->|]; [|discriminate].
    destruct (IH s H) as [t ->]. exists t. reflexivity.
Qed.

Lemma str_in_unfold sub s :
  str_in sub s =
  String.prefix sub s ||
  match s with EmptyString => false | String _ rest => str_in sub rest end.
Proof. destruct s; reflexivity. Qed.

(** An occurrence anywhere is found. *)
Lemma str_in_occurs a sub b : str_in sub (a +:+ sub +:+ b) = true.
Proof.
  induction a as [|x a IH].
  - rewrite append_empty_l, str_in_unfold, prefix_append. reflexivity.
  - rewrite append_cons, str_in_unfold, IH. apply orb_true_r.
Qed.

(** What is found is an occurrence. *)
Lemma str_in_split sub : forall s,
  str_in sub s = true -> exists a b, s = a +:+ sub +:+ b.
Proof.
  induction s as [|x s IH]; intros H; rewrite str_in_unfold in H;
    apply orb_true_iff in H as [H|H]; try discriminate.
  - apply prefix_split in H as [t ->]. exists EmptyString, t. reflexivity.
  - apply prefix_split in H as [t ->]. exists EmptyString, t. reflexivity.
  - destruct (IH H) as (a & b & ->). exists (String x a), b. reflexivity.
Qed.

Lemma str_in_iff sub s :
  str_in sub s = true <-> exists a b, s = a +:+ sub +:+ b.
Proof.
  split; [apply str_in_split|].
  intros (a & b & ->). apply str_in_occurs.
Qed.

Lemma str_in_self s : str_in s s = true.
Proof.
  rewrite str_in_unfold.
  replace (String.prefix s s) with true; [reflexivity|].
  symmetry. clear. induction s as [|x s IH]; [reflexivity|].
  cbn [String.prefix]. destruct (ascii_dec x x); [exact IH | congruence].
Qed.

(** An occurrence survives any text put in front of it. *)
Lemma str_in_append_l sub a s : str_in sub s = true -> str_in sub (a +:+ s) = true.
Proof.
  intros (u & v & ->)%str_in_split.
  rewrite <- append_assoc. apply str_in_occurs.
Qed.

(** Containment is transitive. *)
Lemma str_in_trans a b c :
  str_in a b = true -> str_in b c = true -> str_in a c = true.
Proof.
  intros (u & v & ->)%str_in_split (u' & v' & ->)%str_in_split.
  rewrite <- append_assoc, !append_assoc, <- (append_assoc u' u).
  apply str_in_occurs.
Qed.

Lemma lower_append a b : lower (a +:+ b) = lower a +:+ lower b.
Proof.
  induction a as [|x a IH]; [reflexivity|].
  rewrite append_cons. cbn [lower]. now rewrite IH.
Qed.

(** Lower-casing both sides keeps an occurrence. *)
Lemma str_in_lower sub s :
  str_in sub s = true -> str_in (lower sub) (lower s) = true.
Proof.
  intros (a & b & ->)%str_in_split.
  rewrite !lower_append. apply str_in_occurs.
Qed.

Lemma str_in_nonempty (x : ascii) sub s :
  str_in (String x sub) s = true -> s <> EmptyString.
Proof. intros H ->. discriminate H. Qed.

Lemma lower_nonempty s : lower s <> EmptyString -> s <> EmptyString.
Proof. intros H ->. now apply H. Qed.

End StringFacts.

(** ** Lists *)

Lemma fold_left_snoc {A B} (f : A -> B) (l : list A) : forall init,
  fold_left (fun acc x => acc ++ [f x]) l init = init ++ map f l.
Proof.
  induction l as [|x l IH]; intros init; cbn [fold_left map].
  - now rewrite app_nil_r.
  - rewrite IH, <- app_assoc. reflexivity.
Qed.

Lemma slice_last_short {A} (n : nat) (l : list A) :
  (length l <= n)%nat -> slice_last n l = l.
Proof.
  intros H. unfold slice_last.
  replace (length l - n)%nat with 0%nat by lia. apply drop_0.
Qed.

Lemma slice_last_long {A} (n : nat) (l : list A) :
  (n <= length l)%nat ->
  l = take (length l - n) l ++ slice_last n l /\ length (slice_last n l) = n.
Proof.
  intros H. unfold slice_last. split.
  - symmetry. apply take_drop.
  - rewrite length_drop. lia.
Qed.

Lemma slice_last_map {A B} (f : A -> B) (n : nat) (l : list A) :
  map f (slice_last n l) = slice_last n (map f l).
Proof.
  unfold slice_last. rewrite length_map. apply (fmap_drop f).
Qed.

(** ** The shape of the prompt *)

(** The loop appends one segment per retained message, so the parts are
    the system segment, the retained history in order, and the current
    turn. *)
Lemma conversation_parts_shape request :
  conversation_parts request =
  system_segment request
    :: map history_segment (slice_last 10 (history request))
    ++ [current_segment request].
Proof.
  unfold conversation_parts. rewrite fold_left_snoc. reflexivity.
Qed.

Lemma same_turn_segment m1 m2 :
  same_turn m1 m2 -> history_segment m1 = history_segment m2.
Proof. intros [Hr Hc]. unfold history_segment. now rewrite Hr, Hc. Qed.

Lemma same_history_segments h1 h2 :
  Forall2 same_turn h1 h2 -> map history_segment h1 = map history_segment h2.
Proof.
  induction 1 as [|m1 m2 h1 h2 Hm _ IH]; [reflexivity|].
  cbn [map]. now rewrite (same_turn_segment _ _ Hm), IH.
Qed.

(** ** Running the handler *)

Section Runs.

Variable str_http : Z -> string -> string.
Variable env : gmap string string.
Variable gemini : provider.
Variable request : ChatRequest.
Variable w : world.

(** Without a key the [try] block stops at the guard: one log record,
    no prompt, no call. *)
Lemma chat_try_without_key :
  truthy (gemini_api_key env) = false ->
  chat_try env gemini request w =
  (inl (HTTPException 500 "Gemini API key not configured"),
   {| log := log w ++ [(INFO, received_message request)]; calls := calls w |}).
Proof.
  intros Hkey. unfold chat_try, bind, logger, raise. rewrite Hkey. reflexivity.
Qed.

(** With a key the [try] block reaches the provider, once, and its
    outcome is the provider's. *)
Lemma chat_try_with_key :
  truthy (gemini_api_key env) = true ->
  chat_try env gemini request w =
  match gemini (expected_call env request) with
  | inr text =>
      (inr {| response := text; status := "success"; error := None |},
       {| log := ((log w ++ [(INFO, received_message request)]) ++ [(INFO, sending_message (full_prompt request))]) ++
                 [(INFO, response_message text)];
          calls := calls w ++ [expected_call env request] |})
  | inl e =>
      (inl e,
       {| log := (log w ++ [(INFO, received_message request)]) ++ [(INFO, sending_message (full_prompt request))];
          calls := calls w ++ [expected_call env request] |})
  end.
Proof.
  intros Hkey. unfold chat_try, bind, logger, generate, ret. rewrite Hkey.
  cbn [log calls].
  change {| call_model := getenv_default env "GEMINI_MODEL" "gemini-1.5-pro";
            call_prompt := full_prompt request;
            call_config := generation_config |}
    with (expected_call env request).
  destruct (gemini (expected_call env request)); reflexivity.
Qed.

(** The exceptions the [try] block can end with. *)
Lemma chat_try_raises e :
  fst (chat_try env gemini request w) = inl e ->
  (truthy (gemini_api_key env) = false /\
   e = HTTPException 500 "Gemini API key not configured") \/
  (truthy (gemini_api_key env) = true /\
   gemini (expected_call env request) = inl e).
Proof.
  destruct (truthy (gemini_api_key env)) eqn:Hkey.
  - rewrite (chat_try_with_key Hkey).
    destruct (gemini (expected_call env request)) as [e'|text]; cbn [fst];
      intros [= ->]. right. split; reflexivity.
  - rewrite (chat_try_without_key Hkey). cbn [fst]. intros [= <-].
    left. split; reflexivity.
Qed.

(** The handler's answer to an exception of the [try] block, by the
    branch of the [except] clause that is taken. *)
Lemma chat_endpoint_on_exception e :
  fst (chat_try env gemini request w) = inl e ->
  fst (chat_endpoint str_http env gemini request w) =
  if str_in "API" (str_exn str_http e) || str_in "quota" (lower (str_exn str_http e))
  then inr {| response := apology; status := "error";
              error := Some (str_exn str_http e) |}
  else inl (HTTPException 500 ("Internal server error: " +:+ str_exn str_http e)).
Proof.
  intros Hraise. unfold chat_endpoint, try_except.
  destruct (chat_try env gemini request w) as [[e'|resp] w'];
    cbn [fst] in Hraise; [|discriminate].
  injection Hraise as ->. unfold chat_except.
  destruct (str_in "API" (str_exn str_http e) || str_in "quota" (lower (str_exn str_http e)));
    reflexivity.
Qed.

(** The provider is called at most once, and only behind the guard. *)
Lemma chat_endpoint_calls :
  calls (snd (chat_endpoint str_http env gemini request w)) =
  if truthy (gemini_api_key env)
  then calls w ++ [expected_call env request]
  else calls w.
Proof.
  unfold chat_endpoint, try_except.
  destruct (truthy (gemini_api_key env)) eqn:Hkey.
  - rewrite (chat_try_with_key Hkey).
    destruct (gemini (expected_call env request)) as [e|text]; [|reflexivity].
    unfold chat_except.
    destruct (str_in "API" (str_exn str_http e) || str_in "quota" (lower (str_exn str_http e)));
      reflexivity.
  - rewrite (chat_try_without_key Hkey). unfold chat_except.
    destruct (str_in "API" _ || str_in "quota" _); reflexivity.
Qed.

End Runs.

Lemma str_in_head sub t : str_in sub (sub +:+ t) = true.
Proof. apply (str_in_occurs EmptyString). Qed.

(** Finds an occurrence of the pattern in a chain of appends. *)
Ltac occurrence :=
  first [ apply str_in_self
        | apply str_in_head
        | apply str_in_append_l; occurrence ].

Lemma join_two sep a b : join sep [a; b] = a +:+ sep +:+ b.
Proof. reflexivity. Qed.

Lemma truthy_false o : truthy o = false <-> o = None \/ o = Some EmptyString.
Proof.
  destruct o as [[|c s]|]; cbn [truthy]; split; intros H;
    try reflexivity; try discriminate; auto.
  destruct H as [H|H]; discriminate.
Qed.

Lemma truthy_true o : truthy o = true <-> exists s, o = Some s /\ s <> EmptyString.
Proof.
  destruct o as [[|c s]|]; cbn [truthy]; split; intros H; try discriminate.
  - destruct H as (s & [= <-] & Hs). now elim Hs.
  - exists (String c s). split; [reflexivity | discriminate].
  - reflexivity.
  - destruct H as (s & [=] & _).
Qed.

(** The text in front of the detail does not contain the detail the
    guard raises with, so that detail can only come from [str(e)]. *)
Lemma guard_detail_needs_API s :
  str_in "Gemini API key not configured" ("Internal server error: " +:+ s) = true ->
  str_in "API" s = true.
Proof.
  intros H.
  apply str_in_trans with (b := "Gemini API key not configured");
    [vm_compute; reflexivity|].
  do 23 (rewrite append_cons, str_in_unfold in H;
         cbn [String.prefix orb] in H;
         match type of H with
         | context [ascii_dec ?x ?y] => destruct (ascii_dec x y); [discriminate|]
         end).
  exact H.
Qed.

(** ** The chat endpoint: missing credential *)

(** Whatever text Starlette gives to the guard's exception, a request
    handled without a key is never answered by a 500 whose detail says
    that the key is not configured. *)
Lemma missing_key_detail_lost str_http env gemini request w :
  truthy (gemini_api_key env) = false ->
  forall d, post_chat str_http env gemini request w = {| code := 500; payload := JsonDetail d |} ->
  str_in "Gemini API key not configured" d = false.
Proof.
  intros Hkey d. unfold post_chat.
  rewrite (chat_endpoint_on_exception str_http env gemini request w
             (HTTPException 500 "Gemini API key not configured"))
    by now rewrite chat_try_without_key.
  destruct (str_in "API" _ || str_in "quota" _) eqn:Hbranch; cbn [fastapi_reply];
    [discriminate|].
  intros [= <-]. apply orb_false_iff in Hbranch as [HAPI _].
  destruct (str_in "Gemini API key not configured" _) eqn:Hd; [|reflexivity].
  apply guard_detail_needs_API in Hd. cbn [str_exn] in HAPI.
  rewrite Hd in HAPI. discriminate.
Qed.

(** C1 (the code departs from it). With [GEMINI_API_KEY] unset the
    handler stops at the guard: the prompt is not assembled and the
    provider is not called. But the [HTTPException] the guard raises is
    caught by the handler's own [except Exception]: under current
    Starlette its text holds "API", so the client gets HTTP 200 with a
    [ChatResponse] of status "error"; under a Starlette whose exception
    text is empty the client gets a 500 whose detail no longer names the
    credential. *)
Theorem C1_missing_credential_absorbed gemini request w :
  snd (chat_endpoint starlette_str ∅ gemini request w) =
    {| log := (log w ++ [(INFO, received_message request)]) ++
              [(ERROR, "Gemini API error: 500: Gemini API key not configured")];
       calls := calls w |} /\
  post_chat starlette_str ∅ gemini request w =
    {| code := 200;
       payload := JsonChat {| response := apology; status := "error";
                              error := Some "500: Gemini API key not configured" |} |} /\
  calls (snd (chat_endpoint starlette_legacy_str ∅ gemini request w)) = calls w /\
  post_chat starlette_legacy_str ∅ gemini request w =
    {| code := 500; payload := JsonDetail "Internal server error: " |}.
Proof.
  assert (Hkey : truthy (gemini_api_key ∅) = false) by (vm_compute; reflexivity).
  unfold post_chat, chat_endpoint, try_except.
  rewrite (chat_try_without_key ∅ gemini request w Hkey).
  repeat split; vm_compute; reflexivity.
Qed.

(** ** The chat endpoint: the two tiers of failure *)

(** C2 as written fails for a lower-case "api": the test on "API" is
    made on the text as raised, only the test on "quota" is made on the
    lower-cased text. A provider error "api unreachable" contains "api"
    when case is ignored, and is answered by a 500, not by an absorbed
    error. *)
Lemma C2_lowercase_api_is_not_absorbed :
  fst (chat_try Sample.with_key (Sample.failing "api unreachable")
                Sample.plain empty_world)
    = inl (Exception "api unreachable") /\
  contains_ci "api" (str_exn starlette_str (Exception "api unreachable")) = true /\
  post_chat starlette_str Sample.with_key (Sample.failing "api unreachable")
            Sample.plain empty_world
    = {| code := 500; payload := JsonDetail "Internal server error: api unreachable" |} /\
  code (post_chat starlette_str Sample.with_key (Sample.failing "api unreachable")
                  Sample.plain empty_world) <> 200%Z.
Proof.
  repeat split; try (vm_compute; reflexivity).
  vm_compute. discriminate.
Qed.

(** C2 (amended). When the [try] block raises an exception whose text
    contains "API" in exactly that case, or contains "quota" in any
    letter case, the handler answers HTTP 200 with a [ChatResponse] of
    status "error", the fixed apology as response and the raw text as
    error; with "quota" in the text, in any case, that error is not
    empty. *)
Theorem C2_upstream_failure_absorbed str_http env gemini request w e :
  fst (chat_try env gemini request w) = inl e ->
  str_in "API" (str_exn str_http e) = true \/
  contains_ci "quota" (str_exn str_http e) = true ->
  post_chat str_http env gemini request w =
    {| code := 200;
       payload := JsonChat {| response := apology; status := "error";
                              error := Some (str_exn str_http e) |} |} /\
  (contains_ci "quota" (str_exn str_http e) = true ->
   str_exn str_http e <> EmptyString).
Proof.
  intros Hraise Htext. split.
  - unfold post_chat. rewrite (chat_endpoint_on_exception _ _ _ _ _ _ Hraise).
    replace (str_in "API" (str_exn str_http e) || str_in "quota" (lower (str_exn str_http e)))
      with true; [reflexivity|].
    symmetry. apply orb_true_iff. destruct Htext as [H|H]; [left | right]; exact H.
  - intros Hq. apply lower_nonempty. unfold contains_ci in Hq.
    exact (str_in_nonempty _ _ _ Hq).
Qed.

Lemma C2_upstream_failure_absorbed_witness :
  post_chat starlette_str Sample.with_key (Sample.failing "429 Resource QUOTA exhausted")
            Sample.plain empty_world =
    {| code := 200;
       payload := JsonChat {| response := apology; status := "error";
                              error := Some "429 Resource QUOTA exhausted" |} |} /\
  (contains_ci "quota" "429 Resource QUOTA exhausted" = true ->
   "429 Resource QUOTA exhausted" <> EmptyString).
Proof.
  apply (C2_upstream_failure_absorbed starlette_str Sample.with_key
           (Sample.failing "429 Resource QUOTA exhausted") Sample.plain empty_world
           (Exception "429 Resource QUOTA exhausted")).
  - vm_compute. reflexivity.
  - right. vm_compute. reflexivity.
Defined.

(** C3. When the [try] block raises an exception whose text contains
    neither "api" nor "quota", case ignored, the handler raises an
    [HTTPException] 500 whose detail ends with, and so contains, that
    text; the client gets the 500 with that detail and no [ChatResponse]. *)
Theorem C3_internal_failure_propagates str_http env gemini request w e :
  fst (chat_try env gemini request w) = inl e ->
  contains_ci "api" (str_exn str_http e) = false ->
  contains_ci "quota" (str_exn str_http e) = false ->
  fst (chat_endpoint str_http env gemini request w) =
    inl (HTTPException 500 ("Internal server error: " +:+ str_exn str_http e)) /\
  post_chat str_http env gemini request w =
    {| code := 500;
       payload := JsonDetail ("Internal server error: " +:+ str_exn str_http e) |} /\
  str_in (str_exn str_http e) ("Internal server error: " +:+ str_exn str_http e) = true.
Proof.
  intros Hraise Hapi Hquota.
  assert (Hbranch : str_in "API" (str_exn str_http e)
                    || str_in "quota" (lower (str_exn str_http e)) = false).
  { apply orb_false_iff. split; [|exact Hquota].
    destruct (str_in "API" (str_exn str_http e)) eqn:HAPI; [|reflexivity].
    apply str_in_lower in HAPI. unfold contains_ci in Hapi.
    change (lower "API") with (lower "api") in HAPI. congruence. }
  unfold post_chat. rewrite (chat_endpoint_on_exception _ _ _ _ _ _ Hraise), Hbranch.
  repeat split. occurrence.
Qed.

Lemma C3_internal_failure_propagates_witness :
  fst (chat_endpoint starlette_str Sample.with_key (Sample.failing Sample.null_fault)
                     Sample.plain empty_world) =
    inl (HTTPException 500 ("Internal server error: " +:+ Sample.null_fault)) /\
  post_chat starlette_str Sample.with_key (Sample.failing Sample.null_fault)
            Sample.plain empty_world =
    {| code := 500;
       payload := JsonDetail ("Internal server error: " +:+ Sample.null_fault) |} /\
  str_in Sample.null_fault ("Internal server error: " +:+ Sample.null_fault) = true.
Proof.
  apply (C3_internal_failure_propagates starlette_str Sample.with_key
           (Sample.failing Sample.null_fault) Sample.plain empty_world
           (Exception Sample.null_fault));
    vm_compute; reflexivity.
Defined.

(** ** Prompt assembly *)

(** C4. With more than 10 turns of history, the history segments of the
    prompt are those of exactly the last 10 turns, in their order, and
    the older turns are dropped; with 10 turns or fewer, every turn has
    its segment, in order. *)
Theorem C4_history_window request :
  ((10 < length (history request))%nat ->
   exists older recent,
     history request = older ++ recent /\
     length recent = 10%nat /\
     conversation_parts request =
       system_segment request :: map history_segment recent ++ [current_segment request] /\
     full_prompt request =
       join separator
         (system_segment request :: map history_segment recent ++ [current_segment request])) /\
  ((length (history request) <= 10)%nat ->
   conversation_parts request =
     system_segment request
       :: map history_segment (history request) ++ [current_segment request] /\
   full_prompt request =
     join separator
       (system_segment request
          :: map history_segment (history request) ++ [current_segment request])).
Proof.
  unfold full_prompt. rewrite conversation_parts_shape. split; intros Hlen.
  - destruct (slice_last_long 10 (history request)) as [Hsplit Hten]; [lia|].
    exists (take (length (history request) - 10) (history request)),
           (slice_last 10 (history request)).
    repeat split; assumption.
  - rewrite slice_last_short by exact Hlen. split; reflexivity.
Qed.

Lemma C4_history_window_witness :
  exists older recent,
    history Sample.long = older ++ recent /\
    length recent = 10%nat /\
    conversation_parts Sample.long =
      system_segment Sample.long
        :: map history_segment recent ++ [current_segment Sample.long] /\
    full_prompt Sample.long =
      join separator
        (system_segment Sample.long
           :: map history_segment recent ++ [current_segment Sample.long]).
Proof.
  apply (proj1 (C4_history_window Sample.long)). vm_compute. lia.
Defined.

(** C5. With a non-empty search context, the last segment of the prompt
    starts with "Human" and contains the message, the search context
    and the instruction to use the context when relevant; with an empty
    or absent one, the last segment is "Human: " followed by the
    message. *)
Theorem C5_current_turn request :
  (forall ctx,
     search_context request = Some ctx -> ctx <> EmptyString ->
     exists seg,
       last (conversation_parts request) = Some seg /\
       String.prefix "Human" seg = true /\
       str_in (message request) seg = true /\
       str_in ctx seg = true /\
       str_in "Please answer the question using the provided search context when relevant."
              seg = true) /\
  (search_context request = None \/ search_context request = Some EmptyString ->
   last (conversation_parts request) = Some ("Human: " +:+ message request)).
Proof.
  rewrite conversation_parts_shape, app_comm_cons, last_snoc.
  unfold current_segment, current_message. split.
  - intros ctx Hctx Hne. rewrite Hctx.
    destruct ctx as [|c ctx]; [now elim Hne|]. cbn [truthy format_opt].
    eexists. split; [reflexivity|].
    unfold with_search_context, instruction_phrase.
    split; [apply (prefix_append "Human")|].
    repeat split; occurrence.
  - intros Hempty. apply truthy_false in Hempty. rewrite Hempty. reflexivity.
Qed.

Lemma C5_current_turn_witness :
  exists seg,
    last (conversation_parts Sample.two_turns) = Some seg /\
    String.prefix "Human" seg = true /\
    str_in (message Sample.two_turns) seg = true /\
    str_in "CTX" seg = true /\
    str_in "Please answer the question using the provided search context when relevant."
           seg = true.
Proof.
  apply (proj1 (C5_current_turn Sample.two_turns) "CTX");
    [reflexivity | discriminate].
Defined.

(** C6. The role tag is defined for every role: "user" gives a segment
    "Human: <content>", any other role gives "Assistant: <content>". *)
Theorem C6_role_mapping (msg : ChatMessage) :
  (role msg = "user" -> history_segment msg = "Human: " +:+ content msg) /\
  (role msg <> "user" -> history_segment msg = "Assistant: " +:+ content msg).
Proof.
  unfold history_segment, role_tag. split; intros Hrole.
  - rewrite Hrole. reflexivity.
  - apply String.eqb_neq in Hrole. rewrite Hrole. reflexivity.
Qed.

Lemma C6_role_mapping_witness :
  history_segment (Sample.turn "user" "a" None) = "Human: a" /\
  history_segment (Sample.turn "assistant" "b" None) = "Assistant: b" /\
  history_segment (Sample.turn "system" "c" None) = "Assistant: c".
Proof.
  split; [|split].
  - apply (proj1 (C6_role_mapping (Sample.turn "user" "a" None))). reflexivity.
  - apply (proj2 (C6_role_mapping (Sample.turn "assistant" "b" None))). discriminate.
  - apply (proj2 (C6_role_mapping (Sample.turn "system" "c" None))). discriminate.
Defined.

(** C7. With no history and no search context the prompt has exactly
    two segments, the system segment and "Human: " followed by the
    message, with a blank line between them. *)
Theorem C7_minimal_prompt request :
  history request = [] ->
  search_context request = None \/ search_context request = Some EmptyString ->
  conversation_parts request =
    ["System: " +:+ effective_system_prompt request; "Human: " +:+ message request] /\
  full_prompt request =
    "System: " +:+ effective_system_prompt request +:+ nl +:+ nl +:+
    "Human: " +:+ message request.
Proof.
  intros Hhist Hctx. apply truthy_false in Hctx.
  unfold full_prompt. rewrite conversation_parts_shape, Hhist.
  unfold current_segment, current_message, system_segment. rewrite Hctx.
  split; [reflexivity|].
  cbn [slice_last length drop map app Nat.sub]. rewrite join_two.
  unfold separator. now rewrite !append_assoc.
Qed.

Lemma C7_minimal_prompt_witness :
  conversation_parts Sample.plain =
    ["System: " +:+ effective_system_prompt Sample.plain;
     "Human: " +:+ message Sample.plain] /\
  full_prompt Sample.plain =
    "System: " +:+ effective_system_prompt Sample.plain +:+ nl +:+ nl +:+
    "Human: " +:+ message Sample.plain.
Proof.
  apply (C7_minimal_prompt Sample.plain); [reflexivity | left; reflexivity].
Defined.

(** C9. A request whose [system_prompt] is the empty string, or is
    absent, gets the default system prompt: the first segment is
    "System: " followed by the default text, and for no request is the
    first segment "System: " followed by nothing. *)
Theorem C9_empty_system_prompt_falls_back request :
  (system_prompt request = Some EmptyString \/ system_prompt request = None ->
   head (conversation_parts request) = Some ("System: " +:+ default_system_prompt)) /\
  head (conversation_parts request) <> Some "System: ".
Proof.
  rewrite conversation_parts_shape. cbn [head].
  unfold system_segment, effective_system_prompt. split.
  - intros [-> | ->]; reflexivity.
  - destruct (system_prompt request) as [[|c s]|]; cbn [or_else];
      intros [= H]; vm_compute in H; discriminate H.
Qed.

Lemma C9_empty_system_prompt_falls_back_witness :
  head (conversation_parts Sample.two_turns) = Some ("System: " +:+ default_system_prompt).
Proof.
  apply (proj1 (C9_empty_system_prompt_falls_back Sample.two_turns)).
  left. reflexivity.
Defined.

(** C10. Two requests that differ only in [user_id] and in the
    timestamps of their history turns have the same prompt. *)
Theorem C10_prompt_ignores_user_and_timestamps r1 r2 :
  same_conversation r1 r2 -> full_prompt r1 = full_prompt r2.
Proof.
  intros (Hmsg & Hctx & Hsys & Hhist).
  unfold full_prompt. rewrite !conversation_parts_shape, !slice_last_map.
  rewrite (same_history_segments _ _ Hhist).
  unfold system_segment, effective_system_prompt, current_segment, current_message.
  now rewrite Hmsg, Hctx, Hsys.
Qed.

Lemma C10_prompt_ignores_user_and_timestamps_witness :
  full_prompt Sample.two_turns =
  full_prompt {| message := "and now?";
                 history := [Sample.turn "user" "a" (Some "09:30");
                             Sample.turn "assistant" "b" None];
                 search_context := Some "CTX"; user_id := None;
                 system_prompt := Some EmptyString |}.
Proof.
  apply C10_prompt_ignores_user_and_timestamps.
  repeat split; repeat constructor.
Defined.

(** ** The chat endpoint: success *)

(** C8. With a key configured and a provider that answers, the provider
    is called exactly once, with the model named by [GEMINI_MODEL]
    ("gemini-1.5-pro" when it is unset), the assembled prompt,
    [max_output_tokens] 1000 and [temperature] 0.7; its text is returned
    unchanged in a [ChatResponse] of status "success", sent with HTTP
    200. *)
Theorem C8_success_path str_http env gemini request w text :
  truthy (gemini_api_key env) = true ->
  gemini {| call_model := match getenv env "GEMINI_MODEL" with
                          | Some m => m
                          | None => "gemini-1.5-pro"
                          end;
            call_prompt := full_prompt request;
            call_config := {| max_output_tokens := 1000; temperature := Qmake 7 10 |} |}
    = inr text ->
  calls (snd (chat_endpoint str_http env gemini request w)) =
    calls w ++
    [{| call_model := match getenv env "GEMINI_MODEL" with
                      | Some m => m
                      | None => "gemini-1.5-pro"
                      end;
        call_prompt := full_prompt request;
        call_config := {| max_output_tokens := 1000; temperature := Qmake 7 10 |} |}] /\
  fst (chat_endpoint str_http env gemini request w) =
    inr {| response := text; status := "success"; error := None |} /\
  post_chat str_http env gemini request w =
    {| code := 200;
       payload := JsonChat {| response := text; status := "success"; error := None |} |}.
Proof.
  intros Hkey Hanswer. fold (expected_call env request) in Hanswer |- *.
  rewrite chat_endpoint_calls, Hkey. split; [reflexivity|].
  unfold post_chat, chat_endpoint, try_except.
  rewrite (chat_try_with_key env gemini request w Hkey), Hanswer.
  split; reflexivity.
Qed.

Lemma C8_success_path_witness :
  calls (snd (chat_endpoint starlette_str Sample.with_key (Sample.answering "Hello!")
                            Sample.plain empty_world)) =
    [] ++
    [{| call_model := "gemini-1.5-pro";
        call_prompt := full_prompt Sample.plain;
        call_config := {| max_output_tokens := 1000; temperature := Qmake 7 10 |} |}] /\
  fst (chat_endpoint starlette_str Sample.with_key (Sample.answering "Hello!")
                     Sample.plain empty_world) =
    inr {| response := "Hello!"; status := "success"; error := None |} /\
  post_chat starlette_str Sample.with_key (Sample.answering "Hello!")
            Sample.plain empty_world =
    {| code := 200;
       payload := JsonChat {| response := "Hello!"; status := "success"; error := None |} |}.
Proof.
  apply (C8_success_path starlette_str Sample.with_key (Sample.answering "Hello!")
           Sample.plain empty_world "Hello!"); reflexivity.
Defined.

(** * Further properties of the chat endpoint *)

(** ** One run of the handler, in full *)

(** The whole effect of one request: what is returned or raised, the log
    records added and the provider calls made, by the presence of the key
    and by what the provider does. *)
Lemma chat_endpoint_run str_http env gemini request w :
  chat_endpoint str_http env gemini request w =
  let key := truthy (gemini_api_key env) in
  let before := (INFO, received_message request)
                  :: (if key then [(INFO, sending_message (full_prompt request))] else []) in
  let made := if key then [expected_call env request] else [] in
  let after r := {| log := log w ++ before ++ [r]; calls := calls w ++ made |} in
  match (if key then gemini (expected_call env request)
         else inl (HTTPException 500 "Gemini API key not configured")) with
  | inr text =>
      (inr {| response := text; status := "success"; error := None |},
       after (INFO, response_message text))
  | inl e =>
      if upstream_text (str_exn str_http e)
      then (inr {| response := apology; status := "error";
                   error := Some (str_exn str_http e) |},
            after (ERROR, "Gemini API error: " +:+ str_exn str_http e))
      else (inl (HTTPException 500 ("Internal server error: " +:+ str_exn str_http e)),
            after (ERROR, "Unexpected error: " +:+ str_exn str_http e))
  end.
Proof.
  unfold chat_endpoint, try_except, upstream_text.
  destruct (truthy (gemini_api_key env)) eqn:Hkey; cbn zeta.
  - rewrite (chat_try_with_key env gemini request w Hkey).
    destruct (gemini (expected_call env request)) as [e|text].
    + unfold chat_except, bind, logger, ret, raise.
      destruct (str_in "API" _ || str_in "quota" _); cbn [log calls];
        rewrite <- !app_assoc; reflexivity.
    + rewrite <- !app_assoc. reflexivity.
  - rewrite (chat_try_without_key env gemini request w Hkey).
    unfold chat_except, bind, logger, ret, raise.
    destruct (str_in "API" _ || str_in "quota" _); cbn [log calls];
      rewrite <- !app_assoc, app_nil_r; reflexivity.
Qed.

(** Case analysis on a run: the key, the provider's outcome, the branch
    of the [except] clause. *)
Ltac run_cases str_http env gemini request :=
  rewrite ?chat_endpoint_run; cbn zeta;
  destruct (truthy (gemini_api_key env)) eqn:?Hkey;
  [ destruct (gemini (expected_call env request)) as [?e|?text] eqn:?Hprovider | ];
  try match goal with
      | |- context [upstream_text ?t] => destruct (upstream_text t) eqn:?Hbranch
      end.


(** X2. Whatever the request, the environment and the provider, the
    client gets either a 200 with a [ChatResponse], or a 500 whose
    detail starts with "Internal server error: "; no other status and no
    other body leaves the handler. *)
Theorem post_chat_replies str_http env gemini request w :
  (exists resp, post_chat str_http env gemini request w =
                {| code := 200; payload := JsonChat resp |}) \/
  (exists text, post_chat str_http env gemini request w =
                {| code := 500; payload := JsonDetail ("Internal server error: " +:+ text) |}).
Proof.
  unfold post_chat. run_cases str_http env gemini request; cbn [fst fastapi_reply];
    solve [left; eexists; reflexivity | right; eexists; reflexivity].
Qed.

(** X3. A returned [ChatResponse] has one of two shapes: status
    "success" with no error, or status "error" with the apology as
    response and an error text that passes the upstream test. *)
Theorem chat_response_shapes str_http env gemini request w resp :
  fst (chat_endpoint str_http env gemini request w) = inr resp ->
  (status resp = "success" /\ error resp = None) \/
  (status resp = "error" /\ response resp = apology /\
   exists text, error resp = Some text /\ upstream_text text = true).
Proof.
  run_cases str_http env gemini request; cbn [fst]; intros [= <-];
    solve [left; split; reflexivity
          | right; repeat split; eexists; split; [reflexivity | eassumption]].
Qed.

Lemma chat_response_shapes_witness :
  (status {| response := apology; status := "error";
             error := Some "API rate limit" |} = "success" /\
   error {| response := apology; status := "error";
            error := Some "API rate limit" |} = None) \/
  (status {| response := apology; status := "error";
             error := Some "API rate limit" |} = "error" /\
   response {| response := apology; status := "error";
               error := Some "API rate limit" |} = apology /\
   exists text, error {| response := apology; status := "error";
                         error := Some "API rate limit" |} = Some text /\
                upstream_text text = true).
Proof.
  apply (chat_response_shapes starlette_str Sample.with_key (Sample.failing "API rate limit")
           Sample.plain empty_world).
  vm_compute. reflexivity.
Defined.

(** X4. With [GEMINI_API_KEY] unset or set to the empty string the
    provider is not called and no prompt is logged: the run adds the
    record of the request and one [ERROR] record, nothing else. *)
Theorem no_key_no_call str_http env gemini request w :
  getenv env "GEMINI_API_KEY" = None \/ getenv env "GEMINI_API_KEY" = Some EmptyString ->
  calls (snd (chat_endpoint str_http env gemini request w)) = calls w /\
  exists text,
    log (snd (chat_endpoint str_http env gemini request w)) =
    log w ++ [(INFO, received_message request); (ERROR, text)].
Proof.
  intros Hkey. apply truthy_false in Hkey. fold (gemini_api_key env) in Hkey.
  rewrite chat_endpoint_run. cbn zeta. rewrite Hkey.
  destruct (upstream_text _); cbn [snd log calls]; rewrite app_nil_r;
    (split; [reflexivity | eexists; reflexivity]).
Qed.

Lemma no_key_no_call_witness :
  calls (snd (chat_endpoint starlette_str {[ "GEMINI_API_KEY" := EmptyString ]}
                            (Sample.answering "unused") Sample.plain empty_world))
    = calls empty_world /\
  exists text,
    log (snd (chat_endpoint starlette_str {[ "GEMINI_API_KEY" := EmptyString ]}
                            (Sample.answering "unused") Sample.plain empty_world)) =
    log empty_world ++ [(INFO, received_message Sample.plain); (ERROR, text)].
Proof.
  apply (no_key_no_call starlette_str {[ "GEMINI_API_KEY" := EmptyString ]}
           (Sample.answering "unused") Sample.plain empty_world).
  right. reflexivity.
Defined.

(** X5. A provider that fails is not called again: with a key, a run in
    which the provider raises makes that one call and no other, whether
    the failure is then absorbed or passed on. *)
Theorem failing_provider_called_once str_http env gemini request w e :
  truthy (gemini_api_key env) = true ->
  gemini (expected_call env request) = inl e ->
  calls (snd (chat_endpoint str_http env gemini request w)) =
    calls w ++ [expected_call env request] /\
  fst (chat_endpoint str_http env gemini request w) =
    if upstream_text (str_exn str_http e)
    then inr {| response := apology; status := "error"; error := Some (str_exn str_http e) |}
    else inl (HTTPException 500 ("Internal server error: " +:+ str_exn str_http e)).
Proof.
  intros Hkey Hfail. rewrite chat_endpoint_run. cbn zeta. rewrite Hkey, Hfail.
  destruct (upstream_text _); split; reflexivity.
Qed.

Lemma failing_provider_called_once_witness :
  calls (snd (chat_endpoint starlette_str Sample.with_key (Sample.failing "timeout")
                            Sample.plain empty_world)) =
    calls empty_world ++ [expected_call Sample.with_key Sample.plain] /\
  fst (chat_endpoint starlette_str Sample.with_key (Sample.failing "timeout")
                     Sample.plain empty_world) =
    if upstream_text (str_exn starlette_str (Exception "timeout"))
    then inr {| response := apology; status := "error";
                error := Some (str_exn starlette_str (Exception "timeout")) |}
    else inl (HTTPException 500
                ("Internal server error: " +:+ str_exn starlette_str (Exception "timeout"))).
Proof.
  apply (failing_provider_called_once starlette_str Sample.with_key
           (Sample.failing "timeout") Sample.plain empty_world (Exception "timeout"));
    reflexivity.
Defined.

(** ** What is logged *)




(** X6. Every request is logged first, whatever happens next, and the
    record holds the whole message, not a truncation of it, and the user
    id as sent. *)
Theorem request_logged_in_full str_http env gemini request w :
  (exists rest,
     log (snd (chat_endpoint str_http env gemini request w)) =
     log w ++ (INFO, received_message request) :: rest) /\
  str_in (message request) (received_message request) = true /\
  (forall uid, user_id request = Some uid ->
               str_in uid (received_message request) = true).
Proof.
  split; [|split].
  - run_cases str_http env gemini request; cbn [snd log]; eexists; reflexivity.
  - unfold received_message. occurrence.
  - intros uid Huid. unfold received_message. rewrite Huid. cbn [format_opt]. occurrence.
Qed.

Lemma request_logged_in_full_witness :
  str_in "u1" (received_message Sample.two_turns) = true.
Proof.
  apply (proj2 (proj2 (request_logged_in_full starlette_str Sample.with_key
                         (Sample.answering "ok") Sample.two_turns empty_world))).
  reflexivity.
Defined.

(** X7. The records a run adds at [ERROR] level tell its outcome: none
    when a "success" response is returned, exactly one otherwise, and
    that one ends with the text of the exception. *)
Theorem error_record_iff_failure str_http env gemini request w :
  exists added,
    log (snd (chat_endpoint str_http env gemini request w)) = log w ++ added /\
    match fst (chat_endpoint str_http env gemini request w) with
    | inr {| response := _; status := st; error := None |} => error_records added = []
    | inr {| response := _; status := st; error := Some text |} =>
        error_records added = ["Gemini API error: " +:+ text]
    | inl (HTTPException _ detail) =>
        exists text, error_records added = ["Unexpected error: " +:+ text] /\
                     detail = "Internal server error: " +:+ text
    | inl (Exception _) => False
    end.
Proof.
  run_cases str_http env gemini request; cbn [fst snd log];
    eexists; (split; [reflexivity|]);
    solve [reflexivity | eexists; split; reflexivity].
Qed.


(** ** More on the prompt *)

Lemma concat_cons (sep x y : string) (l : list string) :
  String.concat sep (x :: y :: l) = x +:+ sep +:+ String.concat sep (y :: l).
Proof. reflexivity. Qed.

(** Every part of a joined list occurs in the result. *)
Lemma join_contains sep (p : string) : forall parts,
  In p parts -> str_in p (join sep parts) = true.
Proof.
  unfold join. induction parts as [|x [|y l] IH]; intros Hin.
  - destruct Hin.
  - destruct Hin as [<-|[]]. apply str_in_self.
  - rewrite concat_cons. destruct Hin as [<-|Hin].
    + apply str_in_head.
    + do 2 apply str_in_append_l. apply IH, Hin.
Qed.


(** X9. Nothing the request supplies is altered on its way into the
    prompt: the prompt starts with "System: " and contains the system
    prompt in use, the message, the search context, and the content of
    each of the retained history turns. *)
Theorem prompt_contains_inputs request :
  String.prefix "System: " (full_prompt request) = true /\
  str_in (effective_system_prompt request) (full_prompt request) = true /\
  str_in (message request) (full_prompt request) = true /\
  (forall ctx, search_context request = Some ctx ->
               str_in ctx (full_prompt request) = true) /\
  (forall turn, In turn (slice_last 10 (history request)) ->
                str_in (content turn) (full_prompt request) = true).
Proof.
  assert (Hsys : In (system_segment request) (conversation_parts request)).
  { rewrite conversation_parts_shape. left. reflexivity. }
  assert (Hcur : In (current_segment request) (conversation_parts request)).
  { rewrite conversation_parts_shape. right. apply in_app_iff. right. left. reflexivity. }
  unfold full_prompt. repeat split.
  - rewrite conversation_parts_shape.
    destruct (map history_segment _ ++ [current_segment request]) as [|y l] eqn:Hrest.
    + now destruct (map history_segment (slice_last 10 (history request))).
    + unfold join. rewrite concat_cons. unfold system_segment.
      rewrite append_assoc. apply prefix_append.
  - apply str_in_trans with (b := system_segment request);
      [unfold system_segment; occurrence | apply join_contains, Hsys].
  - apply str_in_trans with (b := current_segment request);
      [|apply join_contains, Hcur].
    unfold current_segment, current_message, with_search_context.
    destruct (truthy (search_context request)); occurrence.
  - intros ctx Hctx.
    apply str_in_trans with (b := current_segment request);
      [|apply join_contains, Hcur].
    unfold current_segment, current_message, with_search_context. rewrite Hctx.
    destruct ctx as [|c ctx]; [reflexivity|]. cbn [truthy format_opt]. occurrence.
  - intros turn Hturn.
    apply str_in_trans with (b := history_segment turn).
    + unfold history_segment. occurrence.
    + apply join_contains. rewrite conversation_parts_shape. right.
      apply in_app_iff. left. apply in_map, Hturn.
Qed.

Lemma prompt_contains_inputs_witness :
  str_in "CTX" (full_prompt Sample.two_turns) = true /\
  str_in "b" (full_prompt Sample.two_turns) = true.
Proof.
  split.
  - apply (proj1 (proj2 (proj2 (proj2 (prompt_contains_inputs Sample.two_turns)))) "CTX").
    reflexivity.
  - apply (proj2 (proj2 (proj2 (proj2 (prompt_contains_inputs Sample.two_turns))))
             (Sample.turn "assistant" "b" (Some "12:00"))).
    vm_compute. right. left. reflexivity.
Defined.

(** X10. The prompt has two segments more than the history turns it
    keeps, so between 2 and 12 segments whatever the length of the
    history. *)
Theorem prompt_segment_count request :
  length (conversation_parts request) = (2 + Nat.min 10 (length (history request)))%nat.
Proof.
  rewrite conversation_parts_shape. cbn [length].
  rewrite length_app, length_map. unfold slice_last. rewrite length_drop.
  cbn [length]. lia.
Qed.



(** ** What the handler reads of the environment *)



(** * Properties of the set-up script *)

Section SetupFacts.

Import Setup.

Variable fs : Type.
Variable shell : string -> fs -> completed * fs.
Variable path_exists : string -> fs -> bool.
Variable py : interpreter.

Local Abbreviation run_command := (Setup.run_command fs shell).
Local Abbreviation main := (Setup.main fs shell path_exists py).

(** [run_command] never leaves the script: it prints, runs the command
    once, prints again, and returns whether the return code was 0. *)
Lemma run_command_run cmd description (m : machine fs) :
  run_command cmd description m =
  let result := fst (shell cmd (files m)) in
  let ok := (returncode result =? 0)%Z in
  (inr ok,
   {| files := snd (shell cmd (files m));
      trace := trace m ++
               [Print ("🔄 " +:+ description +:+ "...");
                Ran cmd result;
                Print (if ok then "✅ " +:+ description +:+ " completed"
                       else "❌ " +:+ description +:+ " failed: " +:+ stderr result)] |}).
Proof.
  unfold Setup.run_command, and_then, print, emit, subprocess_run, done_with.
  cbn [files trace].
  destruct (shell cmd (files m)) as [result files']. cbn [fst snd files trace].
  destruct (returncode result =? 0)%Z; cbn [files trace];
    rewrite <- !app_assoc; reflexivity.
Qed.

(** The blocks of [main], run on any machine. *)

Lemma check_python_run (m : machine fs) :
  check_python fs py m =
  (if version_too_old py then inl 1%Z else inr tt,
   {| files := files m;
      trace := trace m ++
               [Chdir (script_dir py);
                Print "🚀 Setting up Python AI Chat Service...";
                Print ("📁 Working directory: " +:+ script_dir py);
                Print (if version_too_old py then "❌ Python 3.8+ is required"
                       else "✅ Python " +:+ pretty (major py) +:+ "." +:+
                            pretty (minor py) +:+ " detected")] |}).
Proof.
  unfold check_python, and_then, chdir, print, emit, sys_exit, done_with.
  cbn [files trace].
  destruct (version_too_old py); cbn [files trace]; rewrite <- !app_assoc; reflexivity.
Qed.

Lemma ensure_venv_run (m : machine fs) :
  ensure_venv fs shell path_exists py m =
  if path_exists "venv" (files m)
  then (inr tt,
        {| files := files m;
           trace := trace m ++ [Print "✅ Virtual environment already exists"] |})
  else (if (returncode (fst (shell (create_venv py) (files m))) =? 0)%Z
        then inr tt else inl 1%Z,
        snd (run_command (create_venv py) "Creating virtual environment" m)).
Proof.
  unfold ensure_venv, and_then, exists_.
  destruct (path_exists "venv" (files m)); cbn [negb]; [reflexivity|].
  rewrite run_command_run. cbn zeta.
  destruct (returncode _ =? 0)%Z; reflexivity.
Qed.

Lemma install_run (m : machine fs) :
  install fs shell py m =
  let upgraded := snd (run_command (upgrade_pip py) "Upgrading pip" m) in
  let installed :=
    snd (run_command (install_requirements py) "Installing requirements" upgraded) in
  if (returncode (fst (shell (install_requirements py) (files upgraded))) =? 0)%Z
  then (inr tt, installed)
  else (inl 1%Z,
        {| files := files installed;
           trace := trace installed ++
                    [Print "❌ Failed to install requirements. Check your internet connection."] |}).
Proof.
  unfold install, and_then. rewrite !run_command_run. cbn zeta. cbn [snd files trace].
  rewrite !run_command_run. cbn zeta.
  destruct (returncode _ =? 0)%Z; reflexivity.
Qed.

Lemma ensure_env_file_run (m : machine fs) :
  ensure_env_file fs shell path_exists m =
  (inr tt,
   if path_exists ".env" (files m)
   then {| files := files m;
           trace := trace m ++ [Print "✅ .env file already exists"] |}
   else if path_exists ".env.example" (files m)
   then let copied := snd (run_command copy_env "Creating .env file" m) in
        {| files := files copied;
           trace := trace copied ++
                    [Print "⚠️  Please edit .env file and add your Gemini API key";
                     Print "   Get key: https://makersuite.google.com/app/apikey"] |}
   else {| files := files m; trace := trace m ++ [Print "❌ .env.example not found"] |}).
Proof.
  unfold ensure_env_file, and_then, exists_.
  destruct (path_exists ".env" (files m)); cbn [negb]; [reflexivity|].
  destruct (path_exists ".env.example" (files m)); [|reflexivity].
  rewrite run_command_run. cbn zeta. unfold print, emit. cbn [snd files trace].
  rewrite <- !app_assoc. reflexivity.
Qed.

Lemma epilogue_run (m : machine fs) :
  epilogue fs py m =
  (inr tt,
   {| files := files m;
      trace := trace m ++
               [Print (nl +:+ "🎉 Setup complete!");
                Print (nl +:+ "To start the server:");
                Print ("  " +:+ python_cmd py +:+ " main.py");
                Print (nl +:+ "Or use the run script:");
                Print "  ./run.sh"] |}).
Proof.
  unfold epilogue, and_then, print, emit. cbn [files trace].
  rewrite <- !app_assoc. reflexivity.
Qed.

Lemma run_command_files cmd description (m : machine fs) :
  files (snd (run_command cmd description m)) = snd (shell cmd (files m)).
Proof. rewrite run_command_run. reflexivity. Qed.

Lemma run_command_trace cmd description (m : machine fs) :
  trace (snd (run_command cmd description m)) =
  trace m ++
  [Print ("🔄 " +:+ description +:+ "...");
   Ran cmd (fst (shell cmd (files m)));
   Print (if (returncode (fst (shell cmd (files m))) =? 0)%Z
          then "✅ " +:+ description +:+ " completed"
          else "❌ " +:+ description +:+ " failed: " +:+ stderr (fst (shell cmd (files m))))].
Proof. rewrite run_command_run. reflexivity. Qed.

(** Brings the machine reached so far to its files and its trace. *)
Ltac reached :=
  repeat first
    [ rewrite run_command_files
    | rewrite run_command_trace
    | progress cbn [files trace fst snd]
    | progress cbn zeta ].

(** Cases on the answer to a question asked in the goal. *)
Ltac ask_exists p :=
  match goal with
  | |- context [path_exists p ?s] => destruct (path_exists p s) eqn:?Hexist
  end.

Ltac ask_returncode :=
  match goal with
  | |- context [if (returncode ?r =? 0)%Z then inr tt else inl _] =>
      destruct (returncode r =? 0)%Z eqn:?Hcode
  | |- context [if (returncode ?r =? 0)%Z then (inr tt, _) else _] =>
      destruct (returncode r =? 0)%Z eqn:?Hcode
  end.

(** The script from the pip upgrade on, by cases. *)
Ltac from_install :=
  rewrite install_run; reached;
  ask_returncode;
  [ rewrite ensure_env_file_run; reached;
    ask_exists ".env";
    [ | ask_exists ".env.example" ];
    rewrite epilogue_run
  | ].

(** Runs [main] to its end, by cases on the answers of the machine. *)
Ltac script_cases :=
  unfold Setup.main, and_then;
  rewrite check_python_run;
  destruct (version_too_old _) eqn:?Hpy;
  [ | rewrite ensure_venv_run; reached;
      ask_exists "venv";
      [ from_install
      | ask_returncode;
        [ reached; from_install | ] ] ];
  reached; rewrite <- ?app_assoc; cbn [app].


(** X14. The script runs at most four commands, in a fixed order:
    creating the virtual environment, only when [venv] was missing at
    the start; upgrading pip and installing the requirements, always
    together; copying the example file, only after these two. Earlier
    events of the trace are kept. *)
Theorem setup_commands (m : machine fs) :
  exists added (a b c : bool),
    trace (snd (main m)) = trace m ++ added /\
    commands added =
      (if a then [create_venv py] else []) ++
      (if b then [upgrade_pip py; install_requirements py] else []) ++
      (if c then [copy_env] else []) /\
    (a = true -> path_exists "venv" (files m) = false) /\
    (c = true -> b = true).
Proof.
  script_cases; eexists.
  all: first
    [ exists false, false, false; repeat split; reflexivity || discriminate
    | exists false, true, false; repeat split; reflexivity || discriminate
    | exists false, true, true; repeat split; reflexivity || discriminate
    | exists true, false, false; repeat split; reflexivity || assumption || discriminate
    | exists true, true, false; repeat split; reflexivity || assumption || discriminate
    | exists true, true, true; repeat split; reflexivity || assumption || discriminate ].
Qed.

(** X15. The script ends in one of two ways: it leaves with status 1,
    or it returns, and then the interpreter was recent enough and the
    requirements were installed by a command that returned 0. *)
Theorem setup_ends (m : machine fs) :
  fst (main m) = inl 1%Z \/
  (fst (main m) = inr tt /\
   version_too_old py = false /\
   exists result,
     In (Ran (install_requirements py) result) (trace (snd (main m))) /\
     returncode result = 0%Z).
Proof.
  script_cases.
  all: lazymatch goal with
       | |- inl _ = inl _ \/ _ => left; reflexivity
       | |- _ => right; split; [reflexivity|]; split; [reflexivity|]
       end.
  all: eexists; split;
    [ apply in_app_iff; right; cbn [In]; repeat first [left; reflexivity | right]
    | apply Z.eqb_eq; eassumption ].
Qed.

(** X16. Only an old interpreter, a failed creation of the virtual
    environment or a failed installation of the requirements stop the
    script: when the interpreter is recent enough and these two commands
    succeed wherever they are run, the script returns, whatever the pip
    upgrade and the copy of the example file do and whether or not the
    example file exists. *)
Theorem optional_steps_do_not_stop (m : machine fs) :
  version_too_old py = false ->
  (forall s, returncode (fst (shell (create_venv py) s)) = 0%Z) ->
  (forall s, returncode (fst (shell (install_requirements py) s)) = 0%Z) ->
  fst (main m) = inr tt.
Proof.
  intros Hpy Hvenv Hinstall. unfold Setup.main, and_then.
  rewrite check_python_run, Hpy, ensure_venv_run. cbn [files].
  destruct (path_exists "venv" (files m)).
  - rewrite install_run. cbn zeta. rewrite Hinstall. cbn [Z.eqb].
    rewrite ensure_env_file_run, epilogue_run. reflexivity.
  - rewrite Hvenv. cbn [Z.eqb]. rewrite install_run. cbn zeta.
    rewrite Hinstall. cbn [Z.eqb].
    rewrite ensure_env_file_run, epilogue_run. reflexivity.
Qed.

(** X17. When creating the virtual environment fails the script leaves
    with status 1 at once: this is the only command it has run, and pip
    was not called. *)
Theorem venv_failure_stops (m : machine fs) :
  version_too_old py = false ->
  path_exists "venv" (files m) = false ->
  returncode (fst (shell (create_venv py) (files m))) <> 0%Z ->
  fst (main m) = inl 1%Z /\
  files (snd (main m)) = snd (shell (create_venv py) (files m)) /\
  exists added,
    trace (snd (main m)) = trace m ++ added /\
    commands added = [create_venv py].
Proof.
  intros Hpy Hmissing Hfail. apply Z.eqb_neq in Hfail.
  unfold Setup.main, and_then.
  rewrite check_python_run, Hpy, ensure_venv_run. cbn [files].
  rewrite Hmissing, Hfail, run_command_run. cbn zeta. cbn [fst snd files trace].
  rewrite Hfail, <- app_assoc. cbn [app].
  repeat split. eexists. split; reflexivity.
Qed.

(** X18. An existing [.env] is left alone: when it exists at the start
    and no command removes it, the copy of the example file is not among
    the commands run. *)
Theorem env_file_kept (m : machine fs) :
  path_exists ".env" (files m) = true ->
  (forall cmd s, path_exists ".env" s = true ->
                 path_exists ".env" (snd (shell cmd s)) = true) ->
  exists added (a b : bool),
    trace (snd (main m)) = trace m ++ added /\
    commands added =
      (if a then [create_venv py] else []) ++
      (if b then [upgrade_pip py; install_requirements py] else []).
Proof.
  intros Hexists Hkept.
  assert (Htwo : forall c1 c2,
             path_exists ".env" (snd (shell c1 (snd (shell c2 (files m))))) = true)
    by (intros; repeat apply Hkept; exact Hexists).
  assert (Hthree : forall c1 c2 c3,
             path_exists ".env"
               (snd (shell c1 (snd (shell c2 (snd (shell c3 (files m))))))) = true)
    by (intros; repeat apply Hkept; exact Hexists).
  script_cases.
  all: try match goal with
           | H : path_exists ".env" _ = false |- _ =>
               first [ rewrite Htwo in H | rewrite Hthree in H ]; discriminate H
           end.
  all: eexists.
  all: first
    [ exists false, false; split; reflexivity
    | exists false, true; split; reflexivity
    | exists true, false; split; reflexivity
    | exists true, true; split; reflexivity ].
Qed.


End SetupFacts.

(** The theorems above on the sample machine. *)


Lemma optional_steps_do_not_stop_witness :
  fst (Setup.run_on (Setup.cpython 3 12)
         ["venv/bin/pip install --upgrade pip"; "cp .env.example .env"]
         [".env.example"]) = inr tt.
Proof.
  unfold Setup.run_on.
  apply (optional_steps_do_not_stop (list string)
           (Setup.box_shell (Setup.cpython 3 12)
              ["venv/bin/pip install --upgrade pip"; "cp .env.example .env"])
           Setup.box_exists (Setup.cpython 3 12) (Setup.fresh [".env.example"])).
  - reflexivity.
  - intros s. vm_compute. reflexivity.
  - intros s. vm_compute. reflexivity.
Defined.

Lemma venv_failure_stops_witness :
  fst (Setup.run_on (Setup.cpython 3 12) ["/usr/bin/python3 -m venv venv"] []) = inl 1%Z /\
  Setup.files (snd (Setup.run_on (Setup.cpython 3 12) ["/usr/bin/python3 -m venv venv"] [])) =
    snd (Setup.box_shell (Setup.cpython 3 12) ["/usr/bin/python3 -m venv venv"]
           (Setup.create_venv (Setup.cpython 3 12)) []) /\
  exists added,
    Setup.trace (snd (Setup.run_on (Setup.cpython 3 12)
                        ["/usr/bin/python3 -m venv venv"] [])) = [] ++ added /\
    Setup.commands added = [Setup.create_venv (Setup.cpython 3 12)].
Proof.
  unfold Setup.run_on.
  apply (venv_failure_stops (list string)
           (Setup.box_shell (Setup.cpython 3 12) ["/usr/bin/python3 -m venv venv"])
           Setup.box_exists (Setup.cpython 3 12) (Setup.fresh [])).
  - reflexivity.
  - reflexivity.
  - vm_compute. discriminate.
Defined.

Lemma env_file_kept_witness :
  exists added (a b : bool),
    Setup.trace (snd (Setup.run_on (Setup.cpython 3 12) [] [".env"; ".env.example"])) =
      [] ++ added /\
    Setup.commands added =
      (if a then [Setup.create_venv (Setup.cpython 3 12)] else []) ++
      (if b then [Setup.upgrade_pip (Setup.cpython 3 12);
                  Setup.install_requirements (Setup.cpython 3 12)] else []).
Proof.
  unfold Setup.run_on.
  apply (env_file_kept (list string) (Setup.box_shell (Setup.cpython 3 12) [])
           Setup.box_exists (Setup.cpython 3 12) (Setup.fresh [".env"; ".env.example"])).
  - reflexivity.
  - intros cmd s Hs. unfold Setup.box_shell, Setup.box_exists in *.
    apply bool_decide_eq_true in Hs.
    destruct (bool_decide (cmd ∈ [])); cbn [snd]; apply bool_decide_eq_true;
      [exact Hs|].
    destruct (String.eqb cmd _); [apply list_elem_of_further, Hs|].
    destruct (String.eqb cmd _); [apply list_elem_of_further, Hs | exact Hs].
Defined.
